(** * rerank.py: the BGE reranker script of nexu

    A shallow embedding of [apps/api/scripts/rerank.py] and the properties of
    its request contract.  The script reads one JSON request from stdin,
    delegates to [FlagEmbedding.FlagReranker] and prints the scores as a JSON
    array.  The two collaborators that are not part of the repository, the
    [json] decoder applied to stdin and the [FlagEmbedding] package, are
    components of the [World] the script runs in. *)

From Stdlib Require Import List String Ascii ZArith Bool Lia PrimFloat.
Import ListNotations.
Local Open Scope string_scope.
Local Open Scope list_scope.
#[local] Set Warnings "-inexact-float".

(** ** Python values *)

(** The values [json.load] produces and [json.dumps] accepts.  A [str] is
    the sequence of its characters; a [dict] is the list of its items in
    insertion order, its keys being pairwise distinct; a [float] is an
    IEEE 754 binary64 number. *)
#[warnings="-register-all"]
Inductive PyVal : Type :=
| PNone
| PBool (b : bool)
| PInt (z : Z)
| PFloat (f : float)
| PStr (s : string)
| PList (l : list PyVal)
| PDict (items : list (string * PyVal)).

(** The exceptions the script can meet.  [ImportError] stands for the class
    and its subclasses ([ModuleNotFoundError]); [OtherError] is any other
    subclass of [Exception] a collaborator raises. *)
Inductive Exn : Type :=
| ImportError
| JSONDecodeError
| KeyError (key : string)
| TypeError
| OtherError (name : string).

(** The result of a call into Python code. *)
Inductive Result (A : Type) : Type :=
| Ret (a : A)
| Raise (e : Exn).
Arguments Ret {A} a.
Arguments Raise {A} e.

(** [bool(v)], the truth value [not v] negates. *)
Definition truthy (v : PyVal) : bool :=
  match v with
  | PNone => false
  | PBool b => b
  | PInt z => negb (z =? 0)%Z
  | PFloat f => negb (f =? 0)%float
  | PStr s => negb (String.eqb s "")
  | PList l => match l with [] => false | _ :: _ => true end
  | PDict items => match items with [] => false | _ :: _ => true end
  end.

(** [v[key]] for a string [key]: only a [dict] can be subscripted with a
    string, and a key it does not hold is a [KeyError]. *)
Fixpoint dict_get (key : string) (items : list (string * PyVal)) : option PyVal :=
  match items with
  | [] => None
  | (k, v) :: rest => if String.eqb k key then Some v else dict_get key rest
  end.

Definition getitem (v : PyVal) (key : string) : Result PyVal :=
  match v with
  | PDict items =>
      match dict_get key items with
      | Some x => Ret x
      | None => Raise (KeyError key)
      end
  | _ => Raise TypeError
  end.

(** The elements [for passage in v] walks through: the items of a list, the
    characters of a string, the keys of a dict; nothing else that [json.load]
    produces is iterable. *)
Definition iterate (v : PyVal) : Result (list PyVal) :=
  match v with
  | PList l => Ret l
  | PStr s => Ret (map (fun c => PStr (String c EmptyString)) (list_ascii_of_string s))
  | PDict items => Ret (map (fun kv => PStr (fst kv)) items)
  | _ => Raise TypeError
  end.

(** [isinstance(v, float)]: neither [bool] nor [int] is a subclass of
    [float]. *)
Definition isinstance_float (v : PyVal) : bool :=
  match v with
  | PFloat _ => true
  | _ => false
  end.

(** ** The world of one run *)

(** A [FlagReranker] instance, seen through the one method the script calls:
    [compute_score(pairs, normalize=...)]. *)
Record Reranker : Type := mkReranker {
  compute_score : PyVal -> bool -> Result PyVal
}.

(** What one run of the script meets outside itself: the outcome of
    [from FlagEmbedding import FlagReranker], which is the class seen as its
    constructor [FlagReranker(model_name, use_fp16=...)], and the outcome of
    [json.load(sys.stdin)] on the text waiting on stdin. *)
Record World : Type := mkWorld {
  import_FlagReranker : Result (string -> bool -> Result Reranker);
  json_load_stdin : Result PyVal
}.

(** ** Observable actions, in program order *)

Inductive Event : Type :=
| EvImport                                   (* the import statement is run *)
| EvStderr (msg : string)                    (* print(msg, file=sys.stderr) *)
| EvReadStdin                                (* json.load(sys.stdin) *)
| EvNew (model : string) (use_fp16 : bool)   (* FlagReranker(model, use_fp16=...) *)
| EvScore (pairs : PyVal) (normalize : bool) (* reranker.compute_score(pairs, normalize=...) *)
| EvStdout (payload : PyVal)                 (* print(json.dumps(payload)) *)
| EvTraceback (e : Exn).                     (* the interpreter reports an uncaught exception *)

(** How a piece of the script stops: it falls through with a value, an
    exception is in flight, or [sys.exit] was called. *)
Inductive Outcome (A : Type) : Type :=
| Done (a : A)
| Raised (e : Exn)
| Exited (code : Z).
Arguments Done {A} a.
Arguments Raised {A} e.
Arguments Exited {A} code.

(** A computation is the events it performed and how it stopped. *)
Definition Py (A : Type) : Type := (list Event * Outcome A)%type.

Definition pure {A} (a : A) : Py A := ([], Done a).

Definition bind {A B} (m : Py A) (k : A -> Py B) : Py B :=
  match m with
  | (tr, Done a) => let (tr', o) := k a in (tr ++ tr', o)
  | (tr, Raised e) => (tr, Raised e)
  | (tr, Exited c) => (tr, Exited c)
  end.

Notation "x <- m ;; k" := (bind m (fun x => k))
  (at level 61, m at next level, right associativity).
Notation "m ;; k" := (bind m (fun _ => k))
  (at level 61, right associativity).

Definition emit (ev : Event) : Py unit := ([ev], Done tt).

Definition raise {A} (e : Exn) : Py A := ([], Raised e).

Definition sys_exit {A} (code : Z) : Py A := ([], Exited code).

(** A call whose result the world decides, recorded as [ev]. *)
Definition call {A} (ev : Event) (r : Result A) : Py A :=
  emit ev ;;
  match r with
  | Ret a => pure a
  | Raise e => raise e
  end.

(** The result of evaluating an expression of the script itself. *)
Definition eval {A} (r : Result A) : Py A :=
  match r with
  | Ret a => pure a
  | Raise e => raise e
  end.

(** [try: body except <class>: handler], with [catches] deciding whether the
    exception is an instance of the class. *)
Definition try_except {A} (body : Py A) (catches : Exn -> bool) (handler : Py A) : Py A :=
  match body with
  | (tr, Raised e) =>
      if catches e then let (tr', o) := handler in (tr ++ tr', o)
      else (tr, Raised e)
  | other => other
  end.

Definition is_ImportError (e : Exn) : bool :=
  match e with
  | ImportError => true
  | _ => false
  end.

(** ** The script *)

Definition not_installed_msg : string :=
  "Error: FlagEmbedding not installed. Run: pip install FlagEmbedding".

Definition model_name : string := "BAAI/bge-reranker-v2-m3".

(** [[query, passage] for passage in passages], over the elements of
    [passages]. *)
Definition make_pairs (query : PyVal) (items : list PyVal) : list PyVal :=
  map (fun passage => PList [query; passage]) items.

(** [main()], statement by statement. *)
Definition main (w : World) : Py unit :=
  FlagReranker <-
    try_except
      (call EvImport (import_FlagReranker w))
      is_ImportError
      (emit (EvStderr not_installed_msg) ;; sys_exit 1%Z) ;;
  input_data <- call EvReadStdin (json_load_stdin w) ;;
  query <- eval (getitem input_data "query") ;;
  passages <- eval (getitem input_data "passages") ;;
  if negb (truthy passages) then
    emit (EvStdout (PList []))
  else
    reranker <- call (EvNew model_name true) (FlagReranker model_name true) ;;
    items <- eval (iterate passages) ;;
    let pairs := PList (make_pairs query items) in
    scores <- call (EvScore pairs true) (compute_score reranker pairs true) ;;
    let scores := if isinstance_float scores then PList [scores] else scores in
    emit (EvStdout scores).

(** [if __name__ == '__main__': main()]: the process as its caller sees it,
    the events and the exit status.  An exception that leaves [main] is
    reported by the interpreter on stderr and the status is 1; [sys.exit(n)]
    gives status [n]; falling off the end gives 0. *)
Definition run (w : World) : list Event * Z :=
  match main w with
  | (tr, Done _) => (tr, 0%Z)
  | (tr, Exited code) => (tr, code)
  | (tr, Raised e) => (tr ++ [EvTraceback e], 1%Z)
  end.

(** ** Reading a run *)

(** What was written to stdout: the payloads, in order. *)
Definition stdout_of (tr : list Event) : list PyVal :=
  flat_map (fun ev => match ev with EvStdout v => [v] | _ => [] end) tr.

(** What was written to stderr: the script's own messages and the
    interpreter's report of an uncaught exception. *)
Definition is_stderr (ev : Event) : bool :=
  match ev with
  | EvStderr _ | EvTraceback _ => true
  | _ => false
  end.

Definition stderr_of (tr : list Event) : list Event := filter is_stderr tr.

Definition is_import (ev : Event) : bool :=
  match ev with EvImport => true | _ => false end.

Definition is_read (ev : Event) : bool :=
  match ev with EvReadStdin => true | _ => false end.

Definition is_new (ev : Event) : bool :=
  match ev with EvNew _ _ => true | _ => false end.

Definition is_score (ev : Event) : bool :=
  match ev with EvScore _ _ => true | _ => false end.

Definition count (p : Event -> bool) (tr : list Event) : nat :=
  List.length (filter p tr).

(** The request on stdin, when it decodes to an object with both fields:
    the values of ["query"] and ["passages"]. *)
Definition request (w : World) : option (PyVal * PyVal) :=
  match json_load_stdin w with
  | Ret input =>
      match getitem input "query", getitem input "passages" with
      | Ret q, Ret p => Some (q, p)
      | _, _ => None
      end
  | Raise _ => None
  end.

(** The import succeeds. *)
Definition importable (w : World) : bool :=
  match import_FlagReranker w with
  | Ret _ => true
  | Raise _ => false
  end.

(** The Scorer the world hands out: the instance that
    [FlagReranker('BAAI/bge-reranker-v2-m3', use_fp16=True)] returns, when the
    import and the constructor both succeed. *)
Definition scorer (w : World) : option Reranker :=
  match import_FlagReranker w with
  | Ret cls =>
      match cls model_name true with
      | Ret r => Some r
      | Raise _ => None
      end
  | Raise _ => None
  end.

(** [handle] returns [result]: the run ends normally and [result] is the one
    payload written to stdout. *)
Definition returns (w : World) (result : PyVal) : Prop :=
  snd (main w) = Done tt /\ stdout_of (fst (main w)) = [result].

(** [handle] fails with [e]: the exception leaves [main] and nothing was
    written to stdout. *)
Definition fails_with (w : World) (e : Exn) : Prop :=
  snd (main w) = Raised e /\ stdout_of (fst (main w)) = [].

(** A relevance score in the closed interval from 0 to 1. *)
Definition in_unit_interval (v : PyVal) : bool :=
  match v with
  | PFloat f => ((0 <=? f) && (f <=? 1))%float
  | PInt z => ((0 <=? z) && (z <=? 1))%Z
  | _ => false
  end.

(** A Scorer answer whose values all lie between 0 and 1: a float in the
    range, or a list of numbers in the range. *)
Definition well_behaved (raw : PyVal) : bool :=
  match raw with
  | PFloat _ => in_unit_interval raw
  | PList l => forallb in_unit_interval l
  | _ => false
  end.


(** ** Stubs *)

(** A request object as [json.load] returns it. *)
Definition request_obj (query : PyVal) (passages : PyVal) : PyVal :=
  PDict [("query", query); ("passages", passages)].

(** A Scorer that answers every batch with [answer]. *)
Definition stub_reranker (answer : Result PyVal) : Reranker :=
  mkReranker (fun _ _ => answer).

(** A Scorer that scores a pair 1.0 when the passage is the query itself
    and 0.25 otherwise, and answers a batch of one pair with a bare float. *)
Definition exact_match (item : PyVal) : PyVal :=
  match item with
  | PList [PStr q; PStr p] => PFloat (if String.eqb q p then 1 else 0.25)%float
  | _ => PFloat 0%float
  end.

Definition exact_match_reranker : Reranker :=
  mkReranker (fun pairs _ =>
    match pairs with
    | PList [item] => Ret (exact_match item)
    | PList l => Ret (PList (map exact_match l))
    | _ => Raise TypeError
    end).

(** A world in which FlagEmbedding is installed and hands out [r]. *)
Definition installed (r : Reranker) (stdin : Result PyVal) : World :=
  mkWorld (Ret (fun _ _ => Ret r)) stdin.

(** A world in which FlagEmbedding is not installed. *)
Definition not_installed (stdin : Result PyVal) : World :=
  mkWorld (Raise ImportError) stdin.

(** The scenario of the usage note: two passages, scores 0.9 and 0.1. *)
Definition cats_world : World :=
  installed (stub_reranker (Ret (PList [PFloat 0.9; PFloat 0.1])))
    (Ret (request_obj (PStr "cats")
            (PList [PStr "cats are mammals"; PStr "dogs bark"]))).

(** A Scorer that answers 2.0 for the one pair of its batch. *)
Definition out_of_range_world : World :=
  installed (stub_reranker (Ret (PList [PFloat 2])))
    (Ret (request_obj (PStr "q") (PList [PStr "p"]))).

(** A Scorer that answers outside the range and with a non-finite value. *)
Definition wild_world : World :=
  installed (stub_reranker (Ret (PList [PFloat (-3.5); PFloat infinity])))
    (Ret (request_obj (PStr "q") (PList [PStr "a"; PStr "b"]))).

(** Two passages, one score. *)
Definition short_answer_world : World :=
  installed (stub_reranker (Ret (PList [PFloat 0.5])))
    (Ret (request_obj (PStr "q") (PList [PStr "a"; PStr "b"]))).

(** A request with a query and no passages, where FlagEmbedding is missing. *)
Definition empty_request_not_installed : World :=
  not_installed (Ret (request_obj (PStr "q") (PList []))).

(** A request whose fields have the wrong types, and a request without a
    query where FlagEmbedding is missing. *)
Definition wrong_types_world : World :=
  installed exact_match_reranker (Ret (request_obj (PInt 42) PNone)).

Definition no_query_not_installed : World :=
  not_installed (Ret (PDict [("passages", PList [PStr "a"])])).

(** Undecodable text on stdin, where FlagEmbedding is missing. *)
Definition malformed_not_installed : World :=
  not_installed (Raise JSONDecodeError).


(** ** Every path of [main] *)

(** The ten ways through [main], each with what the world must be for the
    script to take it and the run that results. *)
Inductive Path (w : World) : Py unit -> Prop :=
| path_not_installed :
    import_FlagReranker w = Raise ImportError ->
    Path w ([EvImport; EvStderr not_installed_msg], Exited 1%Z)
| path_import_raises e :
    import_FlagReranker w = Raise e ->
    is_ImportError e = false ->
    Path w ([EvImport], Raised e)
| path_load_raises cls e :
    import_FlagReranker w = Ret cls ->
    json_load_stdin w = Raise e ->
    Path w ([EvImport; EvReadStdin], Raised e)
| path_query_raises cls input e :
    import_FlagReranker w = Ret cls ->
    json_load_stdin w = Ret input ->
    getitem input "query" = Raise e ->
    Path w ([EvImport; EvReadStdin], Raised e)
| path_passages_raises cls input q e :
    import_FlagReranker w = Ret cls ->
    json_load_stdin w = Ret input ->
    getitem input "query" = Ret q ->
    getitem input "passages" = Raise e ->
    Path w ([EvImport; EvReadStdin], Raised e)
| path_falsy cls q p :
    import_FlagReranker w = Ret cls ->
    request w = Some (q, p) ->
    truthy p = false ->
    Path w ([EvImport; EvReadStdin; EvStdout (PList [])], Done tt)
| path_new_raises cls q p e :
    import_FlagReranker w = Ret cls ->
    request w = Some (q, p) ->
    truthy p = true ->
    cls model_name true = Raise e ->
    Path w ([EvImport; EvReadStdin; EvNew model_name true], Raised e)
| path_iterate_raises r q p e :
    scorer w = Some r ->
    request w = Some (q, p) ->
    truthy p = true ->
    iterate p = Raise e ->
    Path w ([EvImport; EvReadStdin; EvNew model_name true], Raised e)
| path_score_raises r q p items e :
    scorer w = Some r ->
    request w = Some (q, p) ->
    truthy p = true ->
    iterate p = Ret items ->
    compute_score r (PList (make_pairs q items)) true = Raise e ->
    Path w ([EvImport; EvReadStdin; EvNew model_name true;
             EvScore (PList (make_pairs q items)) true], Raised e)
| path_scored r q p items raw :
    scorer w = Some r ->
    request w = Some (q, p) ->
    truthy p = true ->
    iterate p = Ret items ->
    compute_score r (PList (make_pairs q items)) true = Ret raw ->
    Path w ([EvImport; EvReadStdin; EvNew model_name true;
             EvScore (PList (make_pairs q items)) true;
             EvStdout (if isinstance_float raw then PList [raw] else raw)],
            Done tt).

(** The characters of a string as [for c in s] yields them: strings of
    length one. *)
Definition chars (s : string) : list PyVal :=
  map (fun c => PStr (String c EmptyString)) (list_ascii_of_string s).

(** The string holds ASCII characters only, codes 0 to 127: for such a
    string the characters Python iterates over are the ones listed here. *)
Definition is_ascii_string (s : string) : bool :=
  forallb (fun c => (N_of_ascii c <? 128)%N) (list_ascii_of_string s).

(** The JSON values that [not passages] takes for empty: [null], [false],
    the zeros, the empty string, the empty array and the empty object. *)
Definition falsy_values : list PyVal :=
  [PNone; PBool false; PInt 0; PFloat 0; PFloat (-0); PStr ""; PList []; PDict []].

(** A JSON object. *)
Definition is_dict (v : PyVal) : bool :=
  match v with
  | PDict _ => true
  | _ => false
  end.

(** A JSON array. *)
Definition is_list (v : PyVal) : bool :=
  match v with
  | PList _ => true
  | _ => false
  end.

(** A JSON number or boolean: a value that has a truth value but no
    elements. *)
Definition is_scalar (v : PyVal) : bool :=
  match v with
  | PBool _ | PInt _ | PFloat _ => true
  | _ => false
  end.

(** More worlds: passages that are a string, an object, a number; a Scorer
    that raises; a Scorer that answers with an integer; a request with
    fields the script does not look at. *)
Definition string_passages_world : World :=
  installed exact_match_reranker (Ret (request_obj (PStr "a") (PStr "ab"))).

Definition dict_passages_world : World :=
  installed exact_match_reranker
    (Ret (request_obj (PStr "x") (PDict [("x", PInt 1); ("y", PNone)]))).

Definition number_passages_world : World :=
  installed exact_match_reranker (Ret (request_obj (PStr "q") (PInt 7))).

Definition failing_scorer_world : World :=
  installed (stub_reranker (Raise (OtherError "RuntimeError")))
    (Ret (request_obj (PStr "q") (PList [PStr "p"]))).

Definition int_answer_world : World :=
  installed (stub_reranker (Ret (PInt 1)))
    (Ret (request_obj (PStr "q") (PList [PStr "p"]))).

Definition array_input_world : World :=
  installed exact_match_reranker (Ret (PList [PStr "q"])).

Definition extra_fields_world : World :=
  installed exact_match_reranker
    (Ret (PDict [("top_k", PInt 3); ("passages", PList [PStr "q"; PStr "r"]);
                 ("query", PStr "q")])).

Definition plain_fields_world : World :=
  installed exact_match_reranker
    (Ret (request_obj (PStr "q") (PList [PStr "q"; PStr "r"]))).

(** ** The script on the stubs *)

Example truthy_nan : truthy (PFloat nan) = true.
Proof. reflexivity. Qed.

Example truthy_neg_zero : truthy (PFloat (-0)%float) = false.
Proof. reflexivity. Qed.

Example cats_run :
  run cats_world =
    ([EvImport; EvReadStdin; EvNew model_name true;
      EvScore (PList [PList [PStr "cats"; PStr "cats are mammals"];
                      PList [PStr "cats"; PStr "dogs bark"]]) true;
      EvStdout (PList [PFloat 0.9; PFloat 0.1])], 0%Z).
Proof. reflexivity. Qed.

Example single_passage_run :
  run (installed exact_match_reranker
         (Ret (request_obj (PStr "q") (PList [PStr "q"])))) =
    ([EvImport; EvReadStdin; EvNew model_name true;
      EvScore (PList [PList [PStr "q"; PStr "q"]]) true;
      EvStdout (PList [PFloat 1])], 0%Z).
Proof. reflexivity. Qed.

Example not_installed_run :
  run (not_installed (Ret (request_obj (PStr "q") (PList [])))) =
    ([EvImport; EvStderr not_installed_msg], 1%Z).
Proof. reflexivity. Qed.

Example null_passages_run :
  run (installed exact_match_reranker (Ret (request_obj (PStr "q") PNone))) =
    ([EvImport; EvReadStdin; EvStdout (PList [])], 0%Z).
Proof. reflexivity. Qed.

Example number_passages_run :
  run (installed exact_match_reranker (Ret (request_obj (PStr "q") (PInt 7)))) =
    ([EvImport; EvReadStdin; EvNew model_name true; EvTraceback TypeError], 1%Z).
Proof. reflexivity. Qed.

Example array_input_run :
  run (installed exact_match_reranker (Ret (PList [PStr "q"]))) =
    ([EvImport; EvReadStdin; EvTraceback TypeError], 1%Z).
Proof. reflexivity. Qed.

(** ** The paths through [main] *)

(** Rewriting with what is known of the world, then running the script. *)
Ltac step_main :=
  unfold main;
  repeat match goal with
         | H : import_FlagReranker _ = _ |- _ => rewrite H; clear H
         | H : json_load_stdin _ = _ |- _ => rewrite H; clear H
         end;
  cbn;
  repeat match goal with
         | H : getitem _ _ = _ |- _ => rewrite H; clear H; cbn
         | H : truthy _ = _ |- _ => rewrite H; clear H; cbn
         | H : iterate _ = _ |- _ => rewrite H; clear H; cbn
         | H : ?cls model_name true = _ |- _ => rewrite H; clear H; cbn
         | H : compute_score _ _ _ = _ |- _ => rewrite H; clear H; cbn
         end.

Section Paths.

Variable w : World.

Lemma request_inv (q p : PyVal) :
  request w = Some (q, p) ->
  exists input,
    json_load_stdin w = Ret input /\
    getitem input "query" = Ret q /\
    getitem input "passages" = Ret p.
Proof.
  unfold request. intros H.
  destruct (json_load_stdin w) as [input|e]; [|discriminate].
  exists input.
  destruct (getitem input "query") as [q'|e1]; [|discriminate].
  destruct (getitem input "passages") as [p'|e2]; [|discriminate].
  injection H as -> ->. auto.
Qed.

Lemma importable_inv :
  importable w = true -> exists cls, import_FlagReranker w = Ret cls.
Proof.
  unfold importable. destruct (import_FlagReranker w) as [cls|e]; [|discriminate].
  intros _. now exists cls.
Qed.

Lemma scorer_inv (r : Reranker) :
  scorer w = Some r ->
  exists cls, import_FlagReranker w = Ret cls /\ cls model_name true = Ret r.
Proof.
  unfold scorer. destruct (import_FlagReranker w) as [cls|e]; [|discriminate].
  intros H. exists cls. split; [reflexivity|].
  destruct (cls model_name true) as [r'|e]; [|discriminate].
  now injection H as ->.
Qed.

Lemma scorer_importable (r : Reranker) :
  scorer w = Some r -> importable w = true.
Proof.
  intros H. destruct (scorer_inv _ H) as (cls & Hi & _).
  unfold importable. now rewrite Hi.
Qed.

(** FlagEmbedding is not installed: the handler of the [try] runs. *)
Lemma main_not_installed :
  import_FlagReranker w = Raise ImportError ->
  main w = ([EvImport; EvStderr not_installed_msg], Exited 1%Z).
Proof. intros Hi. step_main. reflexivity. Qed.

(** The import raises something the [except] clause does not catch. *)
Lemma main_import_raises (e : Exn) :
  import_FlagReranker w = Raise e ->
  is_ImportError e = false ->
  main w = ([EvImport], Raised e).
Proof.
  intros Hi He. unfold main. rewrite Hi. cbn. rewrite He. reflexivity.
Qed.

(** [json.load] raises. *)
Lemma main_load_raises (e : Exn) :
  importable w = true ->
  json_load_stdin w = Raise e ->
  main w = ([EvImport; EvReadStdin], Raised e).
Proof.
  intros Hi Hj. destruct (importable_inv Hi) as [cls Hc].
  step_main. reflexivity.
Qed.

(** [input_data['query']] raises. *)
Lemma main_query_raises (input : PyVal) (e : Exn) :
  importable w = true ->
  json_load_stdin w = Ret input ->
  getitem input "query" = Raise e ->
  main w = ([EvImport; EvReadStdin], Raised e).
Proof.
  intros Hi Hj Hq. destruct (importable_inv Hi) as [cls Hc].
  step_main. reflexivity.
Qed.

(** [input_data['passages']] raises. *)
Lemma main_passages_raises (input q : PyVal) (e : Exn) :
  importable w = true ->
  json_load_stdin w = Ret input ->
  getitem input "query" = Ret q ->
  getitem input "passages" = Raise e ->
  main w = ([EvImport; EvReadStdin], Raised e).
Proof.
  intros Hi Hj Hq Hp. destruct (importable_inv Hi) as [cls Hc].
  step_main. reflexivity.
Qed.

(** [not passages] holds: the early return. *)
Lemma main_falsy (q p : PyVal) :
  importable w = true ->
  request w = Some (q, p) ->
  truthy p = false ->
  main w = ([EvImport; EvReadStdin; EvStdout (PList [])], Done tt).
Proof.
  intros Hi Hr Ht. destruct (importable_inv Hi) as [cls Hc].
  destruct (request_inv _ _ Hr) as (input & Hj & Hq & Hp).
  step_main. reflexivity.
Qed.

(** The constructor of [FlagReranker] raises. *)
Lemma main_new_raises cls (q p : PyVal) (e : Exn) :
  import_FlagReranker w = Ret cls ->
  request w = Some (q, p) ->
  truthy p = true ->
  cls model_name true = Raise e ->
  main w = ([EvImport; EvReadStdin; EvNew model_name true], Raised e).
Proof.
  intros Hc Hr Ht Hn.
  destruct (request_inv _ _ Hr) as (input & Hj & Hq & Hp).
  step_main. reflexivity.
Qed.

(** [passages] is true but cannot be iterated over. *)
Lemma main_iterate_raises (r : Reranker) (q p : PyVal) (e : Exn) :
  scorer w = Some r ->
  request w = Some (q, p) ->
  truthy p = true ->
  iterate p = Raise e ->
  main w = ([EvImport; EvReadStdin; EvNew model_name true], Raised e).
Proof.
  intros Hs Hr Ht Hit.
  destruct (scorer_inv _ Hs) as (cls & Hc & Hn).
  destruct (request_inv _ _ Hr) as (input & Hj & Hq & Hp).
  step_main. reflexivity.
Qed.

(** [compute_score] raises. *)
Lemma main_score_raises (r : Reranker) (q p : PyVal) items (e : Exn) :
  scorer w = Some r ->
  request w = Some (q, p) ->
  truthy p = true ->
  iterate p = Ret items ->
  compute_score r (PList (make_pairs q items)) true = Raise e ->
  main w = ([EvImport; EvReadStdin; EvNew model_name true;
             EvScore (PList (make_pairs q items)) true], Raised e).
Proof.
  intros Hs Hr Ht Hit Hsc.
  destruct (scorer_inv _ Hs) as (cls & Hc & Hn).
  destruct (request_inv _ _ Hr) as (input & Hj & Hq & Hp).
  step_main. reflexivity.
Qed.

(** The whole way: the batch is scored and the scores are printed. *)
Lemma main_scored (r : Reranker) (q p : PyVal) items (raw : PyVal) :
  scorer w = Some r ->
  request w = Some (q, p) ->
  truthy p = true ->
  iterate p = Ret items ->
  compute_score r (PList (make_pairs q items)) true = Ret raw ->
  main w = ([EvImport; EvReadStdin; EvNew model_name true;
             EvScore (PList (make_pairs q items)) true;
             EvStdout (if isinstance_float raw then PList [raw] else raw)],
            Done tt).
Proof.
  intros Hs Hr Ht Hit Hsc.
  destruct (scorer_inv _ Hs) as (cls & Hc & Hn).
  destruct (request_inv _ _ Hr) as (input & Hj & Hq & Hp).
  step_main. reflexivity.
Qed.

(** Every normal end of [main] is one of two: the early return on
    [not passages], or the one batch call followed by the print. *)
Lemma main_done_inv (tr : list Event) :
  main w = (tr, Done tt) ->
  (exists q p,
      importable w = true /\ request w = Some (q, p) /\ truthy p = false /\
      tr = [EvImport; EvReadStdin; EvStdout (PList [])])
  \/
  (exists r q p items raw,
      scorer w = Some r /\ request w = Some (q, p) /\ truthy p = true /\
      iterate p = Ret items /\
      compute_score r (PList (make_pairs q items)) true = Ret raw /\
      tr = [EvImport; EvReadStdin; EvNew model_name true;
            EvScore (PList (make_pairs q items)) true;
            EvStdout (if isinstance_float raw then PList [raw] else raw)]).
Proof.
  unfold main, importable, request, scorer.
  destruct (import_FlagReranker w) as [cls|e]; cbn.
  2:{ destruct (is_ImportError e); cbn; discriminate. }
  destruct (json_load_stdin w) as [input|e]; cbn; [|discriminate].
  destruct (getitem input "query") as [q|e]; cbn; [|discriminate].
  destruct (getitem input "passages") as [p|e]; cbn; [|discriminate].
  destruct (truthy p) eqn:Ht; cbn.
  - destruct (cls model_name true) as [r|e]; cbn; [|discriminate].
    destruct (iterate p) as [items|e] eqn:Hit; cbn; [|discriminate].
    destruct (compute_score r (PList (make_pairs q items)) true) as [raw|e] eqn:Hsc;
      cbn; [|discriminate].
    intros H. injection H as <-. right.
    exists r, q, p, items, raw. auto 10.
  - intros H. injection H as <-. left. exists q, p. auto.
Qed.

End Paths.

(** ** The request contract *)

(** C1. When the request holds a non-empty list of N passage strings and the
    Scorer answers the batch with a list of N floats, [main] hands the Scorer
    one batch whose i-th pair is [[query, passages[i]]], and returns a list
    of length N whose i-th element is the i-th score of the Scorer's
    answer. *)
Theorem handle_scores_each_passage_in_order
    (w : World) (r : Reranker) (q : PyVal)
    (passages : list string) (scores : list float) :
  scorer w = Some r ->
  request w = Some (q, PList (map PStr passages)) ->
  passages <> [] ->
  compute_score r (PList (make_pairs q (map PStr passages))) true
    = Ret (PList (map PFloat scores)) ->
  List.length scores = List.length passages ->
  exists pairs result,
    main w = ([EvImport; EvReadStdin; EvNew model_name true;
               EvScore (PList pairs) true; EvStdout (PList result)], Done tt) /\
    List.length pairs = List.length passages /\
    (forall i, nth_error pairs i
               = option_map (fun p => PList [q; PStr p]) (nth_error passages i)) /\
    returns w (PList result) /\
    List.length result = List.length passages /\
    (forall i, nth_error result i = option_map PFloat (nth_error scores i)).
Proof.
  intros Hs Hr Hne Hsc Hlen.
  assert (Ht : truthy (PList (map PStr passages)) = true).
  { destruct passages; [congruence | reflexivity]. }
  pose proof (main_scored w r q _ _ _ Hs Hr Ht eq_refl Hsc) as Hm.
  cbn [isinstance_float] in Hm.
  exists (make_pairs q (map PStr passages)), (map PFloat scores).
  split; [exact Hm|].
  split. { unfold make_pairs. now rewrite !length_map. }
  split.
  { intros i. unfold make_pairs. rewrite !nth_error_map.
    now destruct (nth_error passages i). }
  split. { unfold returns. now rewrite Hm. }
  split. { now rewrite length_map. }
  intros i. apply nth_error_map.
Qed.

Lemma handle_scores_each_passage_in_order_witness :
  exists pairs result,
    main cats_world
      = ([EvImport; EvReadStdin; EvNew model_name true;
          EvScore (PList pairs) true; EvStdout (PList result)], Done tt) /\
    List.length pairs = 2 /\
    (forall i, nth_error pairs i
               = option_map (fun p => PList [PStr "cats"; PStr p])
                   (nth_error ["cats are mammals"; "dogs bark"] i)) /\
    returns cats_world (PList result) /\
    List.length result = 2 /\
    (forall i, nth_error result i
               = option_map PFloat (nth_error [0.9; 0.1]%float i)).
Proof.
  apply (handle_scores_each_passage_in_order cats_world
           (stub_reranker (Ret (PList [PFloat 0.9; PFloat 0.1])))
           (PStr "cats") ["cats are mammals"; "dogs bark"] [0.9; 0.1]%float).
  - reflexivity.
  - reflexivity.
  - discriminate.
  - reflexivity.
  - reflexivity.
Defined.

(** *** Empty passages *)

(** C2, as stated, fails: with a query and an empty list of passages the
    run does not return [[]] when the import fails; it has already exited
    with status 1. *)
Lemma empty_passages_not_installed_exits :
  request empty_request_not_installed = Some (PStr "q", PList []) /\
  main empty_request_not_installed
    = ([EvImport; EvStderr not_installed_msg], Exited 1%Z) /\
  ~ returns empty_request_not_installed (PList []).
Proof.
  split; [reflexivity|]. split; [reflexivity|].
  unfold returns. cbn. intros [H _]. discriminate H.
Qed.

(** C2, amended. The import of FlagEmbedding is tried first; when it
    succeeds, a request with a query and an empty list of passages returns
    [[]] at once: no [FlagReranker] is constructed and [compute_score] is not
    called. *)
Theorem empty_passages_short_circuit (w : World) (q : PyVal) :
  importable w = true ->
  request w = Some (q, PList []) ->
  main w = ([EvImport; EvReadStdin; EvStdout (PList [])], Done tt) /\
  returns w (PList []) /\
  count is_import (fst (main w)) = 1 /\
  count is_new (fst (main w)) = 0 /\
  count is_score (fst (main w)) = 0.
Proof.
  intros Hi Hr.
  pose proof (main_falsy w q (PList []) Hi Hr eq_refl) as Hm.
  unfold returns. rewrite Hm. cbn. auto.
Qed.

Lemma empty_passages_short_circuit_witness :
  main (installed exact_match_reranker (Ret (request_obj (PStr "q") (PList []))))
    = ([EvImport; EvReadStdin; EvStdout (PList [])], Done tt) /\
  returns (installed exact_match_reranker
             (Ret (request_obj (PStr "q") (PList [])))) (PList []) /\
  count is_import
    (fst (main (installed exact_match_reranker
                  (Ret (request_obj (PStr "q") (PList [])))))) = 1 /\
  count is_new
    (fst (main (installed exact_match_reranker
                  (Ret (request_obj (PStr "q") (PList [])))))) = 0 /\
  count is_score
    (fst (main (installed exact_match_reranker
                  (Ret (request_obj (PStr "q") (PList [])))))) = 0.
Proof.
  apply (empty_passages_short_circuit
           (installed exact_match_reranker
              (Ret (request_obj (PStr "q") (PList [])))) (PStr "q")).
  - reflexivity.
  - reflexivity.
Defined.

(** *** A single passage *)

(** C3. With exactly one passage the result is a one-element list, whether
    the Scorer answers the batch of one pair with a one-element list or with
    a bare float. *)
Theorem single_passage_one_element
    (w : World) (r : Reranker) (q p raw : PyVal) (f : float) :
  scorer w = Some r ->
  request w = Some (q, PList [p]) ->
  compute_score r (PList [PList [q; p]]) true = Ret raw ->
  raw = PFloat f \/ raw = PList [PFloat f] ->
  returns w (PList [PFloat f]).
Proof.
  intros Hs Hr Hsc Hraw.
  pose proof (main_scored w r q (PList [p]) [p] raw Hs Hr eq_refl eq_refl Hsc) as Hm.
  unfold returns. rewrite Hm.
  destruct Hraw as [-> | ->]; cbn; auto.
Qed.

Lemma single_passage_one_element_witness :
  returns (installed exact_match_reranker
             (Ret (request_obj (PStr "q") (PList [PStr "q"]))))
    (PList [PFloat 1]).
Proof.
  apply (single_passage_one_element
           (installed exact_match_reranker
              (Ret (request_obj (PStr "q") (PList [PStr "q"]))))
           exact_match_reranker (PStr "q") (PStr "q") (PFloat 1) 1%float).
  - reflexivity.
  - reflexivity.
  - reflexivity.
  - left. reflexivity.
Defined.

(** *** The range of the scores *)

(** C4, as stated, fails: the run of [out_of_range_world] succeeds and
    returns 2.0. *)
Lemma out_of_range_score_returned :
  returns out_of_range_world (PList [PFloat 2]) /\
  in_unit_interval (PFloat 2) = false.
Proof. split; [split|]; reflexivity. Qed.

(** C4, amended. Whenever every answer of the Scorer is well behaved, each
    value of every result that [main] returns lies between 0 and 1. *)
Theorem scores_in_unit_interval (w : World) (result : PyVal) :
  (forall r pairs raw,
      scorer w = Some r ->
      compute_score r pairs true = Ret raw ->
      well_behaved raw = true) ->
  returns w result ->
  exists l, result = PList l /\ forallb in_unit_interval l = true.
Proof.
  intros Hwb [Hdone Hout].
  destruct (main w) as [tr o] eqn:Hm. cbn in Hdone, Hout. subst o.
  destruct (main_done_inv w tr Hm)
    as [(q & p & _ & _ & _ & ->) | (r & q & p & items & raw & Hs & _ & _ & _ & Hsc & ->)].
  - cbn in Hout. injection Hout as <-. exists []. auto.
  - cbn in Hout. injection Hout as <-.
    specialize (Hwb r _ raw Hs Hsc).
    destruct raw; cbn in Hwb |- *; try discriminate.
    + exists [PFloat f]. cbn. rewrite Hwb. auto.
    + exists l. auto.
Qed.

Lemma scores_in_unit_interval_witness :
  exists l,
    PList [PFloat 0.9; PFloat 0.1] = PList l /\
    forallb in_unit_interval l = true.
Proof.
  apply (scores_in_unit_interval cats_world (PList [PFloat 0.9; PFloat 0.1])).
  - intros r pairs raw Hs Hsc.
    injection Hs as <-. injection Hsc as <-. reflexivity.
  - split; reflexivity.
Defined.

(** *** Pass-through *)

(** C5. For a non-empty list of passages, what [main] returns is what the
    Scorer answered: a list is returned as it is, value for value, and a
    bare float is returned as the one element of a list.  Nothing is
    clamped or rescaled. *)
Theorem scores_pass_through
    (w : World) (r : Reranker) (q : PyVal) (passages : list PyVal) (raw : PyVal) :
  scorer w = Some r ->
  request w = Some (q, PList passages) ->
  passages <> [] ->
  compute_score r (PList (make_pairs q passages)) true = Ret raw ->
  (forall values, raw = PList values -> returns w (PList values)) /\
  (forall f, raw = PFloat f -> returns w (PList [PFloat f])).
Proof.
  intros Hs Hr Hne Hsc.
  assert (Ht : truthy (PList passages) = true).
  { destruct passages; [congruence | reflexivity]. }
  pose proof (main_scored w r q _ _ raw Hs Hr Ht eq_refl Hsc) as Hm.
  unfold returns. rewrite Hm.
  split; intros ? ->; cbn; auto.
Qed.

Lemma scores_pass_through_witness :
  (forall values,
      PList [PFloat (-3.5); PFloat infinity] = PList values ->
      returns wild_world (PList values)) /\
  (forall f,
      PList [PFloat (-3.5); PFloat infinity] = PFloat f ->
      returns wild_world (PList [PFloat f])).
Proof.
  apply (scores_pass_through wild_world
           (stub_reranker (Ret (PList [PFloat (-3.5); PFloat infinity])))
           (PStr "q") [PStr "a"; PStr "b"]).
  - reflexivity.
  - reflexivity.
  - discriminate.
  - reflexivity.
Defined.

(** C10. The length of the Scorer's answer is not checked: for N passages,
    an answer that is a list of another length is returned as it is, the
    run ends with status 0, and the one payload on stdout does not have
    length N. *)
Theorem scorer_length_not_checked
    (w : World) (r : Reranker) (q : PyVal) (passages values : list PyVal) :
  scorer w = Some r ->
  request w = Some (q, PList passages) ->
  passages <> [] ->
  compute_score r (PList (make_pairs q passages)) true = Ret (PList values) ->
  List.length values <> List.length passages ->
  returns w (PList values) /\
  snd (run w) = 0%Z /\
  (forall result,
      stdout_of (fst (run w)) = [PList result] ->
      result = values /\ List.length result <> List.length passages).
Proof.
  intros Hs Hr Hne Hsc Hlen.
  assert (Ht : truthy (PList passages) = true).
  { destruct passages; [congruence | reflexivity]. }
  pose proof (main_scored w r q _ _ _ Hs Hr Ht eq_refl Hsc) as Hm.
  cbn [isinstance_float] in Hm.
  unfold returns, run. rewrite Hm. cbn.
  split; [auto|]. split; [reflexivity|].
  intros result Hout. injection Hout as <-. auto.
Qed.

Lemma scorer_length_not_checked_witness :
  returns short_answer_world (PList [PFloat 0.5]) /\
  snd (run short_answer_world) = 0%Z /\
  (forall result,
      stdout_of (fst (run short_answer_world)) = [PList result] ->
      result = [PFloat 0.5] /\ List.length result <> 2).
Proof.
  apply (scorer_length_not_checked short_answer_world
           (stub_reranker (Ret (PList [PFloat 0.5])))
           (PStr "q") [PStr "a"; PStr "b"] [PFloat 0.5]).
  - reflexivity.
  - reflexivity.
  - discriminate.
  - reflexivity.
  - cbn. lia.
Defined.

(** *** Input errors *)

(** C6, as stated, fails twice over.  The types of the fields are not
    examined: a number for the query and [null] for the passages give the
    result [[]].  And an absent field is not reported when the import has
    failed: the run has exited with status 1 before the input is read. *)
Lemma wrong_types_accepted_and_import_first :
  (request wrong_types_world = Some (PInt 42, PNone) /\
   returns wrong_types_world (PList [])) /\
  (json_load_stdin no_query_not_installed
     = Ret (PDict [("passages", PList [PStr "a"])]) /\
   main no_query_not_installed
     = ([EvImport; EvStderr not_installed_msg], Exited 1%Z) /\
   forall e, ~ fails_with no_query_not_installed e).
Proof.
  split.
  - split; [reflexivity|]. split; reflexivity.
  - split; [reflexivity|]. split; [reflexivity|].
    intros e [H _]. cbn in H. discriminate H.
Qed.

(** C6, amended. When the import of FlagEmbedding succeeds and the input
    is an object in which the query or the passages key is absent, [main]
    fails with the [KeyError] of the first absent key, having read the input
    and written nothing to stdout. *)
Theorem absent_field_key_error (w : World) (items : list (string * PyVal)) :
  importable w = true ->
  json_load_stdin w = Ret (PDict items) ->
  dict_get "query" items = None \/ dict_get "passages" items = None ->
  fails_with w (KeyError match dict_get "query" items with
                         | None => "query"
                         | Some _ => "passages"
                         end) /\
  fst (main w) = [EvImport; EvReadStdin].
Proof.
  intros Hi Hj Habs. unfold fails_with.
  destruct (dict_get "query" items) as [q|] eqn:Hq.
  - destruct Habs as [Habs | Habs]; [discriminate|].
    rewrite (main_passages_raises w (PDict items) q (KeyError "passages") Hi Hj).
    + cbn. auto.
    + cbn. now rewrite Hq.
    + cbn. now rewrite Habs.
  - rewrite (main_query_raises w (PDict items) (KeyError "query") Hi Hj).
    + cbn. auto.
    + cbn. now rewrite Hq.
Qed.

Lemma absent_field_key_error_witness :
  fails_with
    (installed exact_match_reranker (Ret (PDict [("query", PStr "q")])))
    (KeyError "passages") /\
  fst (main (installed exact_match_reranker (Ret (PDict [("query", PStr "q")]))))
    = [EvImport; EvReadStdin].
Proof.
  apply (absent_field_key_error
           (installed exact_match_reranker (Ret (PDict [("query", PStr "q")])))
           [("query", PStr "q")]).
  - reflexivity.
  - reflexivity.
  - right. reflexivity.
Defined.

(** C7, as stated, fails: when the import has failed, input that does not
    decode is never seen, and the run exits with status 1 instead of
    failing with [JSONDecodeError]. *)
Lemma malformed_input_not_installed_exits :
  json_load_stdin malformed_not_installed = Raise JSONDecodeError /\
  main malformed_not_installed
    = ([EvImport; EvStderr not_installed_msg], Exited 1%Z) /\
  ~ fails_with malformed_not_installed JSONDecodeError.
Proof.
  split; [reflexivity|]. split; [reflexivity|].
  intros [H _]. cbn in H. discriminate H.
Qed.

(** C7, amended. When the import of FlagEmbedding succeeds and the text on
    stdin does not decode, [main] fails with [JSONDecodeError]; nothing
    catches it, so the interpreter reports it and the process ends with
    status 1, and nothing is written to stdout. *)
Theorem malformed_input_propagates (w : World) :
  importable w = true ->
  json_load_stdin w = Raise JSONDecodeError ->
  fails_with w JSONDecodeError /\
  run w = ([EvImport; EvReadStdin; EvTraceback JSONDecodeError], 1%Z) /\
  stdout_of (fst (run w)) = [].
Proof.
  intros Hi Hj.
  pose proof (main_load_raises w JSONDecodeError Hi Hj) as Hm.
  unfold fails_with, run. rewrite Hm. cbn. auto.
Qed.

Lemma malformed_input_propagates_witness :
  fails_with (installed exact_match_reranker (Raise JSONDecodeError))
    JSONDecodeError /\
  run (installed exact_match_reranker (Raise JSONDecodeError))
    = ([EvImport; EvReadStdin; EvTraceback JSONDecodeError], 1%Z) /\
  stdout_of (fst (run (installed exact_match_reranker (Raise JSONDecodeError))))
    = [].
Proof.
  apply (malformed_input_propagates
           (installed exact_match_reranker (Raise JSONDecodeError))).
  - reflexivity.
  - reflexivity.
Defined.

(** *** The scoring capability *)




(** C9. The import comes first.  Where FlagEmbedding is not installed, the
    run is the same whatever is on stdin, be it undecodable, without its
    fields or with empty passages: the import, the message on stderr, exit
    status 1.  Stdin is not read, nothing is returned and no exception
    leaves [main]. *)
Theorem import_checked_before_input (stdin : Result PyVal) :
  main (not_installed stdin)
    = ([EvImport; EvStderr not_installed_msg], Exited 1%Z) /\
  run (not_installed stdin)
    = ([EvImport; EvStderr not_installed_msg], 1%Z) /\
  count is_read (fst (run (not_installed stdin))) = 0 /\
  stdout_of (fst (run (not_installed stdin))) = [] /\
  (forall result, ~ returns (not_installed stdin) result) /\
  (forall e, ~ fails_with (not_installed stdin) e).
Proof.
  assert (Hm : main (not_installed stdin)
               = ([EvImport; EvStderr not_installed_msg], Exited 1%Z)).
  { apply main_not_installed. reflexivity. }
  unfold run, returns, fails_with. rewrite Hm. cbn.
  repeat split; auto.
  - intros result [H _]. discriminate H.
  - intros e [H _]. discriminate H.
Qed.

(** ** All runs *)

Lemma request_intro (w : World) (input q p : PyVal) :
  json_load_stdin w = Ret input ->
  getitem input "query" = Ret q ->
  getitem input "passages" = Ret p ->
  request w = Some (q, p).
Proof. intros Hj Hq Hp. unfold request. now rewrite Hj, Hq, Hp. Qed.

Lemma scorer_intro (w : World) cls (r : Reranker) :
  import_FlagReranker w = Ret cls ->
  cls model_name true = Ret r ->
  scorer w = Some r.
Proof. intros Hi Hn. unfold scorer. now rewrite Hi, Hn. Qed.

(** [main] takes one of the ten paths, whatever the world. *)
Lemma main_path (w : World) : Path w (main w).
Proof.
  destruct (import_FlagReranker w) as [cls|e] eqn:Hi.
  2:{ destruct (is_ImportError e) eqn:He.
      - destruct e; try discriminate.
        rewrite (main_not_installed w Hi). now constructor.
      - rewrite (main_import_raises w e Hi He). now constructor. }
  assert (Himp : importable w = true) by (unfold importable; now rewrite Hi).
  destruct (json_load_stdin w) as [input|e] eqn:Hj.
  2:{ rewrite (main_load_raises w e Himp Hj). econstructor; eauto. }
  destruct (getitem input "query") as [q|e] eqn:Hq.
  2:{ rewrite (main_query_raises w input e Himp Hj Hq).
      eapply path_query_raises; eauto. }
  destruct (getitem input "passages") as [p|e] eqn:Hp.
  2:{ rewrite (main_passages_raises w input q e Himp Hj Hq Hp).
      eapply path_passages_raises; eauto. }
  pose proof (request_intro w input q p Hj Hq Hp) as Hr.
  destruct (truthy p) eqn:Ht.
  2:{ rewrite (main_falsy w q p Himp Hr Ht). eapply path_falsy; eauto. }
  destruct (cls model_name true) as [r|e] eqn:Hn.
  2:{ rewrite (main_new_raises w cls q p e Hi Hr Ht Hn).
      eapply path_new_raises; eauto. }
  pose proof (scorer_intro w cls r Hi Hn) as Hs.
  destruct (iterate p) as [items|e] eqn:Hit.
  2:{ rewrite (main_iterate_raises w r q p e Hs Hr Ht Hit).
      eapply path_iterate_raises; eauto. }
  destruct (compute_score r (PList (make_pairs q items)) true) as [raw|e] eqn:Hsc.
  - rewrite (main_scored w r q p items raw Hs Hr Ht Hit Hsc).
    eapply path_scored; eauto.
  - rewrite (main_score_raises w r q p items e Hs Hr Ht Hit Hsc).
    eapply path_score_raises; eauto.
Qed.

(** Case analysis on the path [main] takes in [w]. *)
Ltac by_path w :=
  let P := fresh "P" in
  pose proof (main_path w) as P;
  unfold run;
  destruct (main w) as [? ?];
  inversion P; subst; clear P; cbn.

(** X1. All or nothing.  Every run ends with status 0 or 1.  With status 0
    exactly one payload has been written to stdout and nothing to stderr;
    with status 1 nothing has been written to stdout and something to
    stderr. *)
Theorem output_all_or_nothing (w : World) :
  (snd (run w) = 0%Z /\
   (exists payload, stdout_of (fst (run w)) = [payload]) /\
   stderr_of (fst (run w)) = [])
  \/
  (snd (run w) = 1%Z /\
   stdout_of (fst (run w)) = [] /\
   stderr_of (fst (run w)) <> []).
Proof.
  by_path w;
    try (right; repeat split; [discriminate]);
    left; repeat split; eauto.
Qed.

(** X2. Nothing is done twice.  In every run the import statement is
    executed once, and stdin is read, the [FlagReranker] constructed,
    [compute_score] called and stdout written at most once each: the
    passages are scored in one batch call, never one call per passage. *)
Theorem each_action_at_most_once (w : World) :
  count is_import (fst (run w)) = 1 /\
  count is_read (fst (run w)) <= 1 /\
  count is_new (fst (run w)) <= 1 /\
  count is_score (fst (run w)) <= 1 /\
  List.length (stdout_of (fst (run w))) <= 1.
Proof.
  by_path w; repeat split; auto.
Qed.

(** *** What reaches the Scorer *)

(** Passages that count as true have a first element. *)
Lemma truthy_iterate_nonempty (p : PyVal) (items : list PyVal) :
  truthy p = true -> iterate p = Ret items -> items <> [].
Proof.
  destruct p as [ | b | z | f | s | l | kvs]; cbn; try discriminate.
  - destruct s; [discriminate|]. intros _ H. injection H as <-. discriminate.
  - destruct l; [discriminate|]. intros _ H. injection H as <-. discriminate.
  - destruct kvs; [discriminate|]. intros _ H. injection H as <-. discriminate.
Qed.

(** X3. The Scorer is never called on an empty batch.  Every call of
    [compute_score] in a run passes [normalize=True] and a non-empty list,
    which is [[query, x]] for each element [x] of the request's passages,
    in order. *)
Theorem scorer_called_on_nonempty_batch
    (w : World) (pairs : PyVal) (normalize : bool) :
  In (EvScore pairs normalize) (fst (run w)) ->
  normalize = true /\
  exists q p items,
    request w = Some (q, p) /\
    iterate p = Ret items /\
    pairs = PList (make_pairs q items) /\
    List.length (make_pairs q items) = List.length items /\
    make_pairs q items <> [].
Proof.
  assert (Hne : forall q p items,
             truthy p = true -> iterate p = Ret items ->
             List.length (make_pairs q items) = List.length items /\
             make_pairs q items <> []).
  { intros q p items Ht Hit. unfold make_pairs.
    pose proof (truthy_iterate_nonempty p items Ht Hit) as Hi.
    split; [apply length_map|]. destruct items; [congruence | discriminate]. }
  by_path w; intros Hin;
    repeat (destruct Hin as [Hin | Hin]; try discriminate Hin); try contradiction.
  - injection Hin as <- <-. split; [reflexivity|].
    exists q, p, items. destruct (Hne q p items) as [? ?]; auto.
  - injection Hin as <- <-. split; [reflexivity|].
    exists q, p, items. destruct (Hne q p items) as [? ?]; auto.
Qed.

Lemma scorer_called_on_nonempty_batch_witness :
  true = true /\
  exists q p items,
    request cats_world = Some (q, p) /\
    iterate p = Ret items /\
    PList [PList [PStr "cats"; PStr "cats are mammals"];
           PList [PStr "cats"; PStr "dogs bark"]]
      = PList (make_pairs q items) /\
    List.length (make_pairs q items) = List.length items /\
    make_pairs q items <> [].
Proof.
  apply (scorer_called_on_nonempty_batch cats_world).
  cbn. right. right. right. left. reflexivity.
Defined.

(** *** Passages that are not a list of strings *)

(** X4. Any passages value that Python takes for false gives the empty
    result: [null], [false], 0, 0.0, -0.0, the empty string, the empty array
    and the empty object all return [[]] with status 0, and the Scorer is
    neither constructed nor called. *)
Theorem falsy_passages_return_empty (w : World) (q p : PyVal) :
  importable w = true ->
  request w = Some (q, p) ->
  In p falsy_values ->
  run w = ([EvImport; EvReadStdin; EvStdout (PList [])], 0%Z).
Proof.
  intros Hi Hr Hin.
  assert (Ht : truthy p = false).
  { unfold falsy_values in Hin.
    repeat (destruct Hin as [<- | Hin]; [reflexivity|]). contradiction. }
  unfold run. now rewrite (main_falsy w q p Hi Hr Ht).
Qed.

Lemma falsy_passages_return_empty_witness :
  run wrong_types_world = ([EvImport; EvReadStdin; EvStdout (PList [])], 0%Z).
Proof.
  apply (falsy_passages_return_empty wrong_types_world (PInt 42) PNone).
  - reflexivity.
  - reflexivity.
  - cbn. left. reflexivity.
Defined.

(** X5. A number or [true] as passages passes the emptiness test and fails
    only at the iteration: by then the [FlagReranker] has been constructed.
    The run ends with an uncaught [TypeError], status 1, and the Scorer is
    not called. *)
Theorem scalar_passages_type_error (w : World) (r : Reranker) (q p : PyVal) :
  scorer w = Some r ->
  request w = Some (q, p) ->
  is_scalar p = true ->
  truthy p = true ->
  run w = ([EvImport; EvReadStdin; EvNew model_name true; EvTraceback TypeError],
           1%Z).
Proof.
  intros Hs Hr Hsc Ht.
  assert (Hit : iterate p = Raise TypeError).
  { destruct p; try discriminate; reflexivity. }
  unfold run. now rewrite (main_iterate_raises w r q p TypeError Hs Hr Ht Hit).
Qed.

Lemma scalar_passages_type_error_witness :
  run number_passages_world
    = ([EvImport; EvReadStdin; EvNew model_name true; EvTraceback TypeError], 1%Z).
Proof.
  apply (scalar_passages_type_error number_passages_world
           exact_match_reranker (PStr "q") (PInt 7)).
  - reflexivity.
  - reflexivity.
  - reflexivity.
  - reflexivity.
Defined.

Lemma length_list_ascii_of_string (s : string) :
  List.length (list_ascii_of_string s) = String.length s.
Proof. induction s as [|c s IH]; cbn; [reflexivity | now rewrite IH]. Qed.

Lemma nth_error_list_ascii_of_string (s : string) (i : nat) :
  nth_error (list_ascii_of_string s) i = String.get i s.
Proof.
  revert i. induction s as [|c s IH]; intros [|i]; cbn; auto.
Qed.

(** X6. A non-empty string of ASCII characters as passages is scored
    character by character: the Scorer is called once, on a batch with one
    pair per character of the string, the i-th pair being the query with
    the i-th character. *)
Theorem ascii_string_passages_scored_by_character
    (w : World) (r : Reranker) (q : PyVal) (s : string) :
  scorer w = Some r ->
  request w = Some (q, PStr s) ->
  is_ascii_string s = true ->
  s <> "" ->
  exists pairs,
    In (EvScore (PList pairs) true) (fst (run w)) /\
    List.length pairs = String.length s /\
    (forall i, nth_error pairs i
               = option_map (fun c => PList [q; PStr (String c EmptyString)])
                   (String.get i s)).
Proof.
  intros Hs Hr _ Hne.
  assert (Ht : truthy (PStr s) = true).
  { cbn. destruct s; [congruence | reflexivity]. }
  exists (make_pairs q (chars s)). split; [|split].
  - unfold run.
    destruct (compute_score r (PList (make_pairs q (chars s))) true) as [raw|e] eqn:Hsc.
    + rewrite (main_scored w r q (PStr s) (chars s) raw Hs Hr Ht eq_refl Hsc).
      cbn. auto.
    + rewrite (main_score_raises w r q (PStr s) (chars s) e Hs Hr Ht eq_refl Hsc).
      cbn. auto.
  - unfold make_pairs, chars. rewrite !length_map.
    apply length_list_ascii_of_string.
  - intros i. unfold make_pairs, chars. rewrite !nth_error_map.
    rewrite nth_error_list_ascii_of_string.
    now destruct (String.get i s).
Qed.

Lemma ascii_string_passages_scored_by_character_witness :
  exists pairs,
    In (EvScore (PList pairs) true) (fst (run string_passages_world)) /\
    List.length pairs = String.length "ab" /\
    (forall i, nth_error pairs i
               = option_map (fun c => PList [PStr "a"; PStr (String c EmptyString)])
                   (String.get i "ab")).
Proof.
  apply (ascii_string_passages_scored_by_character string_passages_world
           exact_match_reranker (PStr "a") "ab").
  - reflexivity.
  - reflexivity.
  - reflexivity.
  - discriminate.
Defined.

(** X7. A non-empty object as passages is scored key by key: the batch has
    one pair per item of the object, the i-th pair being the query with the
    i-th key; the values of the object do not reach the Scorer. *)
Theorem dict_passages_scored_by_key
    (w : World) (r : Reranker) (q : PyVal) (items : list (string * PyVal)) :
  scorer w = Some r ->
  request w = Some (q, PDict items) ->
  items <> [] ->
  exists pairs,
    In (EvScore (PList pairs) true) (fst (run w)) /\
    List.length pairs = List.length items /\
    (forall i, nth_error pairs i
               = option_map (fun kv => PList [q; PStr (fst kv)])
                   (nth_error items i)).
Proof.
  intros Hs Hr Hne.
  assert (Ht : truthy (PDict items) = true).
  { cbn. destruct items; [congruence | reflexivity]. }
  set (keys := map (fun kv : string * PyVal => PStr (fst kv)) items).
  exists (make_pairs q keys). split; [|split].
  - unfold run.
    destruct (compute_score r (PList (make_pairs q keys)) true) as [raw|e] eqn:Hsc.
    + rewrite (main_scored w r q (PDict items) keys raw Hs Hr Ht eq_refl Hsc).
      cbn. auto.
    + rewrite (main_score_raises w r q (PDict items) keys e Hs Hr Ht eq_refl Hsc).
      cbn. auto.
  - unfold make_pairs, keys. now rewrite !length_map.
  - intros i. unfold make_pairs, keys. rewrite !nth_error_map.
    now destruct (nth_error items i).
Qed.

Lemma dict_passages_scored_by_key_witness :
  exists pairs,
    In (EvScore (PList pairs) true) (fst (run dict_passages_world)) /\
    List.length pairs = 2 /\
    (forall i, nth_error pairs i
               = option_map (fun kv => PList [PStr "x"; PStr (fst kv)])
                   (nth_error [("x", PInt 1); ("y", PNone)] i)).
Proof.
  apply (dict_passages_scored_by_key dict_passages_world
           exact_match_reranker (PStr "x") [("x", PInt 1); ("y", PNone)]).
  - reflexivity.
  - reflexivity.
  - discriminate.
Defined.

(** *** Failures after the import *)

(** X8. An exception raised by [compute_score] is not caught: the run ends
    with that exception reported by the interpreter and status 1, after one
    constructor call and one batch call, and nothing is written to
    stdout. *)
Theorem scoring_failure_propagates
    (w : World) (r : Reranker) (q : PyVal) (passages : list PyVal) (e : Exn) :
  scorer w = Some r ->
  request w = Some (q, PList passages) ->
  passages <> [] ->
  compute_score r (PList (make_pairs q passages)) true = Raise e ->
  run w = ([EvImport; EvReadStdin; EvNew model_name true;
            EvScore (PList (make_pairs q passages)) true; EvTraceback e], 1%Z) /\
  fails_with w e.
Proof.
  intros Hs Hr Hne Hsc.
  assert (Ht : truthy (PList passages) = true).
  { destruct passages; [congruence | reflexivity]. }
  pose proof (main_score_raises w r q _ _ e Hs Hr Ht eq_refl Hsc) as Hm.
  unfold run, fails_with. rewrite Hm. cbn. auto.
Qed.

Lemma scoring_failure_propagates_witness :
  run failing_scorer_world
    = ([EvImport; EvReadStdin; EvNew model_name true;
        EvScore (PList (make_pairs (PStr "q") [PStr "p"])) true;
        EvTraceback (OtherError "RuntimeError")], 1%Z) /\
  fails_with failing_scorer_world (OtherError "RuntimeError").
Proof.
  apply (scoring_failure_propagates failing_scorer_world
           (stub_reranker (Raise (OtherError "RuntimeError")))
           (PStr "q") [PStr "p"] (OtherError "RuntimeError")).
  - reflexivity.
  - reflexivity.
  - discriminate.
  - reflexivity.
Defined.

(** X9. Input that decodes to anything but an object, be it an array, a
    string, a number, a boolean or [null], cannot be subscripted with
    ['query']: the run ends with an uncaught [TypeError] and status 1, before
    any use of the Scorer. *)
Theorem non_object_input_type_error (w : World) (input : PyVal) :
  importable w = true ->
  json_load_stdin w = Ret input ->
  is_dict input = false ->
  run w = ([EvImport; EvReadStdin; EvTraceback TypeError], 1%Z) /\
  fails_with w TypeError.
Proof.
  intros Hi Hj Hd.
  assert (Hq : getitem input "query" = Raise TypeError).
  { destruct input; try discriminate; reflexivity. }
  pose proof (main_query_raises w input TypeError Hi Hj Hq) as Hm.
  unfold run, fails_with. rewrite Hm. cbn. auto.
Qed.

Lemma non_object_input_type_error_witness :
  run array_input_world = ([EvImport; EvReadStdin; EvTraceback TypeError], 1%Z) /\
  fails_with array_input_world TypeError.
Proof.
  apply (non_object_input_type_error array_input_world (PList [PStr "q"])).
  - reflexivity.
  - reflexivity.
  - reflexivity.
Defined.

(** *** What the run depends on *)

(** X10. Of the input object only the values of ['query'] and ['passages']
    matter: two runs with the same outcome of the import and the same two
    values are the same run, whatever other keys the objects hold and
    in whatever order. *)
Theorem only_query_and_passages_matter (w1 w2 : World) (q p : PyVal) :
  import_FlagReranker w1 = import_FlagReranker w2 ->
  request w1 = Some (q, p) ->
  request w2 = Some (q, p) ->
  main w1 = main w2 /\ run w1 = run w2.
Proof.
  intros Hi Hr1 Hr2.
  destruct (request_inv w1 q p Hr1) as (i1 & Hj1 & Hq1 & Hp1).
  destruct (request_inv w2 q p Hr2) as (i2 & Hj2 & Hq2 & Hp2).
  assert (Hm : main w1 = main w2).
  { unfold main. rewrite Hi, Hj1, Hj2.
    destruct (import_FlagReranker w2) as [cls|e]; cbn.
    - now rewrite Hq1, Hq2, Hp1, Hp2.
    - destruct (is_ImportError e); reflexivity. }
  split; [exact Hm|]. unfold run. now rewrite Hm.
Qed.

Lemma only_query_and_passages_matter_witness :
  main extra_fields_world = main plain_fields_world /\
  run extra_fields_world = run plain_fields_world.
Proof.
  apply (only_query_and_passages_matter extra_fields_world plain_fields_world
           (PStr "q") (PList [PStr "q"; PStr "r"])).
  - reflexivity.
  - reflexivity.
  - reflexivity.
Defined.

(** X11. The script itself writes to stderr in one case only: a message is
    printed there exactly when the import raises [ImportError], and it is
    the not-installed message. *)
Theorem diagnostic_iff_import_error (w : World) (msg : string) :
  In (EvStderr msg) (fst (run w)) <->
  msg = not_installed_msg /\ import_FlagReranker w = Raise ImportError.
Proof.
  pose proof (main_path w) as P. unfold run.
  destruct (main w) as [tr o].
  inversion P; subst; clear P; cbn;
    (split;
     [ intros Hin;
       repeat (destruct Hin as [Hin | Hin]; try discriminate Hin);
       try contradiction
     | intros [-> Hi] ]).
  all: try (injection Hin as <-; auto).
  all: try (right; left; reflexivity).
  all: try match goal with
           | H : scorer ?x = Some _ |- _ =>
               destruct (scorer_inv x _ H) as (? & ? & _)
           end.
  all: try congruence.
  all: match goal with
       | H1 : import_FlagReranker _ = Raise ?e, H2 : is_ImportError ?e = false |- _ =>
           rewrite Hi in H1; injection H1 as <-; discriminate H2
       end.
Qed.

(** *** The shape of the result *)

(** X12. Only a float is wrapped.  On a scored request whose answer from
    the Scorer is a value of the JSON types ([None], a [bool], an [int], a
    [float], a [str], a [list] or a [dict]), the payload is a JSON array
    exactly when the answer is a float or a list; an answer of another of
    these types, an integer or [None] for instance, is printed as it is, and
    the run still ends with status 0.  Answers outside these types are not
    covered. *)
Theorem result_is_array_iff_float_or_list
    (w : World) (r : Reranker) (q : PyVal) (passages : list PyVal) (raw : PyVal) :
  scorer w = Some r ->
  request w = Some (q, PList passages) ->
  passages <> [] ->
  compute_score r (PList (make_pairs q passages)) true = Ret raw ->
  exists payload,
    stdout_of (fst (run w)) = [payload] /\
    snd (run w) = 0%Z /\
    (is_list payload = true <-> isinstance_float raw = true \/ is_list raw = true) /\
    (isinstance_float raw = false -> payload = raw).
Proof.
  intros Hs Hr Hne Hsc.
  assert (Ht : truthy (PList passages) = true).
  { destruct passages; [congruence | reflexivity]. }
  pose proof (main_scored w r q _ _ raw Hs Hr Ht eq_refl Hsc) as Hm.
  unfold run. rewrite Hm. cbn.
  exists (if isinstance_float raw then PList [raw] else raw).
  split; [reflexivity|]. split; [reflexivity|].
  destruct (isinstance_float raw) eqn:Hf; cbn.
  - split; [|discriminate]. split; auto.
  - split; [|reflexivity]. split; [auto|].
    intros [H | H]; [discriminate | exact H].
Qed.

Lemma result_is_array_iff_float_or_list_witness :
  exists payload,
    stdout_of (fst (run int_answer_world)) = [payload] /\
    snd (run int_answer_world) = 0%Z /\
    (is_list payload = true <->
     isinstance_float (PInt 1) = true \/ is_list (PInt 1) = true) /\
    (isinstance_float (PInt 1) = false -> payload = PInt 1).
Proof.
  apply (result_is_array_iff_float_or_list int_answer_world
           (stub_reranker (Ret (PInt 1))) (PStr "q") [PStr "p"] (PInt 1)).
  - reflexivity.
  - reflexivity.
  - discriminate.
  - reflexivity.
Defined.

(** *** When each action happens *)

(** X13. Stdin is read exactly when the import succeeds.  The
    [FlagReranker] is constructed exactly when, moreover, the input is an
    object with both fields and passages that count as true.
    [compute_score] is called exactly when, moreover, the constructor
    returns and the passages can be iterated over. *)
Theorem actions_happen_iff (w : World) :
  (count is_read (fst (run w)) = 1 <-> importable w = true) /\
  (count is_new (fst (run w)) = 1 <->
   importable w = true /\
   exists q p, request w = Some (q, p) /\ truthy p = true) /\
  (count is_score (fst (run w)) = 1 <->
   exists r q p items,
     scorer w = Some r /\ request w = Some (q, p) /\
     truthy p = true /\ iterate p = Ret items).
Proof.
  unfold run, main, importable, request, scorer.
  destruct (import_FlagReranker w) as [cls|e]; cbn.
  2:{ destruct (is_ImportError e); cbn;
      (repeat split; try discriminate;
       try (intros [? _]; discriminate);
       try (intros (? & ? & ? & ? & ? & _); discriminate)). }
  destruct (json_load_stdin w) as [input|e]; cbn.
  2:{ repeat split; try discriminate; auto;
      try (intros [_ (? & ? & ? & _)]; discriminate);
      try (intros (? & ? & ? & ? & _ & ? & _); discriminate). }
  destruct (getitem input "query") as [q|e]; cbn.
  2:{ repeat split; try discriminate; auto;
      try (intros [_ (? & ? & ? & _)]; discriminate);
      try (intros (? & ? & ? & ? & _ & ? & _); discriminate). }
  destruct (getitem input "passages") as [p|e]; cbn.
  2:{ repeat split; try discriminate; auto;
      try (intros [_ (? & ? & ? & _)]; discriminate);
      try (intros (? & ? & ? & ? & _ & ? & _); discriminate). }
  destruct (truthy p) eqn:Ht; cbn.
  2:{ repeat split; try discriminate; auto.
      - intros [_ (q' & p' & H & Ht')]. injection H as <- <-. congruence.
      - intros (r' & q' & p' & items & _ & H & Ht' & _).
        injection H as <- <-. congruence. }
  destruct (cls model_name true) as [r|e]; cbn.
  2:{ repeat split; try discriminate; eauto.
      intros (? & ? & ? & ? & ? & _); discriminate. }
  destruct (iterate p) as [items|e] eqn:Hit; cbn.
  2:{ repeat split; try discriminate; eauto.
      intros (r' & q' & p' & items & _ & H & _ & Hit').
      injection H as <- <-. congruence. }
  destruct (compute_score r (PList (make_pairs q items)) true) as [raw|e]; cbn;
    repeat split; eauto 10.
Qed.
